(** * The packaging manifest [bindings/python/setup.py] of pubky-core-ffi

    The manifest is a two-statement Python script: it imports [setup] and
    [find_packages] from setuptools and calls [setup] once with thirteen
    keyword arguments.  Two of the arguments are computed from the build
    environment ([find_packages()] and [open("README.md").read()]); the
    other eleven are literals.

    The script is embedded as a computation in a state-and-exception monad
    over the part of the Python runtime it touches: the file system, the
    table of file objects, the importable setuptools module, the platform
    text encoding, and a log of the operations performed.

    The runtime modelled is CPython on a POSIX host: paths are
    case-sensitive and separated by [/]. *)

From stdpp Require Import base option list gmap.
From Stdlib Require Import NArith Strings.String Strings.Ascii Strings.Byte.

Set Warnings "-register-all".
Local Open Scope N_scope.

(** ** Text *)

(** A Python [str] is a sequence of Unicode code points. *)
Abbreviation str := (list N).

(** A string literal of the source, as code points. *)
Definition lit (s : string) : str := N_of_ascii <$> list_ascii_of_string s.
Arguments lit s%_string.

Definition LF : N := 10.
Definition CR : N := 13.

(** Text-mode files are opened with [newline=None]: on input, the line
    endings ["\r\n"] and ["\r"] are handed to the caller as ["\n"]. *)
Fixpoint universal_newlines (s : str) : str :=
  match s with
  | [] => []
  | c :: t =>
      if c =? CR then
        LF :: match t with
              | d :: t' => if d =? LF then universal_newlines t'
                           else universal_newlines t
              | [] => []
              end
      else c :: universal_newlines t
  end.

(** ** Exceptions and results *)

Inductive exn :=
| ModuleNotFoundError (module : str)
| FileNotFoundError (path : str)
| IsADirectoryError (path : str)
| PermissionError (path : str)
| UnicodeDecodeError
| ValueError
| UnsupportedOperation
| OSError
| NameError (id : string)
| ImportError (id : string)
| AttributeError (attr : string)
| TypeError
| SetuptoolsError (code : N).

Inductive outcome (A : Type) :=
| Ok (a : A)
| Raise (e : exn).
Arguments Ok {A} a.
Arguments Raise {A} e.

Definition raises {A} (r : outcome A) : Prop :=
  match r with Ok _ => False | Raise _ => True end.

(** ** The file system *)

(** Paths are the strings the script passes to the runtime, relative to the
    working directory of the build. *)
Inductive node :=
| Dir (readable : bool)
| File (content : list byte) (readable writable : bool).

Abbreviation fs := (gmap str node).

Inductive open_mode := ModeR | ModeW | ModeA.

(** [open(file)] has [mode='r']. *)
Definition mode_default : open_mode := ModeR.

(** ** The keyword arguments of [setup] *)

Record setup_args := {
  name : str;
  version : str;
  packages : list str;
  package_data : gmap str (list str);
  install_requires : list str;
  author : str;
  author_email : str;
  description : str;
  long_description : str;
  long_description_content_type : str;
  url : str;
  classifiers : list str;
  python_requires : str
}.

(** ** The build environment *)

(** setuptools is not part of the repository.  Its two entry points are
    taken from the environment: [find_packages] inspects the file system,
    [setup] runs the requested build commands and may write to it.  Either
    may raise.  [setup_reads] lists the files a run of [setup] reads, and
    [implicit_data_files] the package-data patterns this version of
    setuptools adds to the declared ones for every package. *)
Record setuptools := {
  find_packages_impl : fs → outcome (list str);
  setup_impl : setup_args → fs → outcome unit * fs;
  setup_reads : setup_args → fs → list str;
  implicit_data_files : list str
}.

(** What does not change while the script runs: whether setuptools can be
    imported, and the decoder of the platform's default text encoding
    ([None] on a byte sequence the codec rejects). *)
Record env := {
  env_setuptools : option setuptools;
  env_decode : list byte → option str
}.

(** ** Interpreter state *)

Record file_object := {
  fo_path : str;
  fo_mode : open_mode;
  fo_closed : bool;
  fo_eof : bool
}.

Inductive event :=
| EvImport (module : str)
| EvFindPackages
| EvOpen (path : str) (mode : open_mode)
| EvRead (fd : nat)
| EvClose (fd : nat)
| EvSetup (a : setup_args).

(** [st_trace] logs the operations of the script; [st_tool_reads] the
    files read inside [setup]. *)
Record state := {
  st_fs : fs;
  st_files : list file_object;
  st_trace : list event;
  st_tool_reads : list str
}.

(** A fresh interpreter started in a build directory. *)
Definition boot (f : fs) : state :=
  {| st_fs := f; st_files := []; st_trace := []; st_tool_reads := [] |}.

Definition log (ev : event) (s : state) : state :=
  {| st_fs := st_fs s; st_files := st_files s;
     st_trace := st_trace s ++ [ev]; st_tool_reads := st_tool_reads s |}.

Definition set_fs (f : fs) (s : state) : state :=
  {| st_fs := f; st_files := st_files s; st_trace := st_trace s;
     st_tool_reads := st_tool_reads s |}.

Definition set_files (l : list file_object) (s : state) : state :=
  {| st_fs := st_fs s; st_files := l; st_trace := st_trace s;
     st_tool_reads := st_tool_reads s |}.

(** ** The monad of script evaluation *)

Definition Py (A : Type) : Type := env → state → outcome A * state.

#[export] Instance Py_ret : MRet Py := λ A a _ s, (Ok a, s).

#[export] Instance Py_bind : MBind Py := λ A B k c e s,
  match c e s with
  | (Ok a, s') => k a e s'
  | (Raise x, s') => (Raise x, s')
  end.

(** ** Runtime primitives *)

Definition new_file_object (file : str) (mode : open_mode) (s : state)
  : outcome nat * state :=
  (Ok (List.length (st_files s)),
   set_files (st_files s ++
     [{| fo_path := file; fo_mode := mode;
         fo_closed := false; fo_eof := false |}]) s).

(** The builtin [open(file, mode)] in text mode.  ['r'] needs an existing
    readable regular file; ['w'] creates or truncates; ['a'] creates.  A
    directory can be opened for reading by the system when the process
    may read it, and is then refused by the runtime; opening one for
    writing is refused by the system whatever its permissions. *)
Definition open (file : str) (mode : open_mode) : Py nat := λ _ s0,
  let s := log (EvOpen file mode) s0 in
  match st_fs s !! file with
  | Some (Dir r) =>
      match mode with
      | ModeR =>
          if r then (Raise (IsADirectoryError file), s)
          else (Raise (PermissionError file), s)
      | ModeW | ModeA => (Raise (IsADirectoryError file), s)
      end
  | None =>
      match mode with
      | ModeR => (Raise (FileNotFoundError file), s)
      | ModeW | ModeA =>
          new_file_object file mode
            (set_fs (<[file := File [] true true]> (st_fs s)) s)
      end
  | Some (File b r w) =>
      match mode with
      | ModeR =>
          if r then new_file_object file mode s
          else (Raise (PermissionError file), s)
      | ModeW =>
          if w then new_file_object file mode
                      (set_fs (<[file := File [] r w]> (st_fs s)) s)
          else (Raise (PermissionError file), s)
      | ModeA =>
          if w then new_file_object file mode s
          else (Raise (PermissionError file), s)
      end
  end.

Definition mark_eof (fo : file_object) : file_object :=
  {| fo_path := fo_path fo; fo_mode := fo_mode fo;
     fo_closed := fo_closed fo; fo_eof := true |}.

Definition mark_closed (fo : file_object) : file_object :=
  {| fo_path := fo_path fo; fo_mode := fo_mode fo;
     fo_closed := true; fo_eof := fo_eof fo |}.

(** The method [read()] of a text file object: everything up to the end of
    the file, decoded with the platform encoding, line endings
    normalised.  The bytes are consumed whether or not they decode: a
    second [read()] returns the empty string. *)
Definition read (fd : nat) : Py str := λ e s0,
  let s := log (EvRead fd) s0 in
  match st_files s !! fd with
  | None => (Raise ValueError, s)
  | Some fo =>
      if fo_closed fo then (Raise ValueError, s)
      else match fo_mode fo with
      | ModeW | ModeA => (Raise UnsupportedOperation, s)
      | ModeR =>
          if fo_eof fo then (Ok [], s)
          else match st_fs s !! fo_path fo with
          | Some (File b _ _) =>
              match env_decode e b with
              | Some t =>
                  (Ok (universal_newlines t),
                   set_files (<[fd := mark_eof fo]> (st_files s)) s)
              | None =>
                  (Raise UnicodeDecodeError,
                   set_files (<[fd := mark_eof fo]> (st_files s)) s)
              end
          | _ => (Raise OSError, s)
          end
      end
  end.

(** The method [close()]; also what leaving a [with] block does. *)
Definition close (fd : nat) : Py unit := λ _ s0,
  let s := log (EvClose fd) s0 in
  match st_files s !! fd with
  | None => (Raise ValueError, s)
  | Some fo => (Ok tt, set_files (<[fd := mark_closed fo]> (st_files s)) s)
  end.

(** Calls into setuptools. *)
Definition call_find_packages (m : setuptools) : Py (list str) := λ _ s0,
  let s := log EvFindPackages s0 in
  (find_packages_impl m (st_fs s), s).

Definition call_setup (m : setuptools) (a : setup_args) : Py unit := λ _ s0,
  let s := log (EvSetup a) s0 in
  let '(r, f) := setup_impl m a (st_fs s) in
  (r, {| st_fs := f; st_files := st_files s; st_trace := st_trace s;
         st_tool_reads := st_tool_reads s ++ setup_reads m a (st_fs s) |}).

(** [from setuptools import setup, find_packages]: binds the two names, or
    raises when the module is not installed. *)
Definition from_setuptools_import_setup_find_packages
  : Py ((setup_args → Py unit) * (unit → Py (list str))) := λ e s0,
  let s := log (EvImport (lit "setuptools")) s0 in
  match env_setuptools e with
  | Some m => (Ok (call_setup m, λ _, call_find_packages m), s)
  | None => (Raise (ModuleNotFoundError (lit "setuptools")), s)
  end.

(** ** The manifest *)

Definition README : str := lit "README.md".

(** The argument list of the call, keyword by keyword in source order;
    Python evaluates keyword arguments left to right before the call. *)
Definition setup_keywords (find_packages : unit → Py (list str))
  : Py setup_args :=
  let name_ := lit "pubkycore" in
  let version_ := lit "0.1.0" in
  packages_ ← find_packages tt;
  let package_data_ : gmap str (list str) :=
    {[ lit "pubkycore" := [lit "*.so"; lit "*.dylib"; lit "*.dll"] ]} in
  let install_requires_ := [] in
  let author_ := lit "Pubky" in
  let author_email_ := lit "" in
  let description_ := lit "Python bindings for the Pubky Mobile SDK" in
  long_description_ ← (f ← open README mode_default; read f);
  let long_description_content_type_ := lit "text/markdown" in
  let url_ := lit "" in
  let classifiers_ :=
    [ lit "Programming Language :: Python :: 3";
      lit "License :: OSI Approved :: MIT License";
      lit "Operating System :: OS Independent" ] in
  let python_requires_ := lit ">=3.6" in
  mret {| name := name_;
          version := version_;
          packages := packages_;
          package_data := package_data_;
          install_requires := install_requires_;
          author := author_;
          author_email := author_email_;
          description := description_;
          long_description := long_description_;
          long_description_content_type := long_description_content_type_;
          url := url_;
          classifiers := classifiers_;
          python_requires := python_requires_ |}.

(** The whole script. *)
Definition manifest : Py unit :=
  '(setup, find_packages) ← from_setuptools_import_setup_find_packages;
  a ← setup_keywords find_packages;
  setup a.

(** One evaluation of the manifest in a build directory. *)
Definition evaluate (e : env) (f : fs) : outcome unit * state :=
  manifest e (boot f).

(** ** Reading the log *)

Definition setup_calls (tr : list event) : list setup_args :=
  omap (λ ev, match ev with EvSetup a => Some a | _ => None end) tr.

Definition opens (tr : list event) : list (str * open_mode) :=
  omap (λ ev, match ev with EvOpen p m => Some (p, m) | _ => None end) tr.

Definition reads (tr : list event) : list nat :=
  omap (λ ev, match ev with EvRead fd => Some fd | _ => None end) tr.

Definition closes (tr : list event) : list nat :=
  omap (λ ev, match ev with EvClose fd => Some fd | _ => None end) tr.

(** The files whose content the script itself reads: the paths of the
    file objects its [read()] calls go through. *)
Definition script_files_read (s : state) : list str :=
  omap (λ fd, fo_path <$> st_files s !! fd) (reads (st_trace s)).

(** Every file read during an evaluation, by the script and then inside
    [setup]. *)
Definition files_read (s : state) : list str :=
  script_files_read s ++ st_tool_reads s.

(** The text [open("README.md").read()] yields in a build environment, if
    it yields one: the file must exist, be a regular file the process may
    read, and hold bytes the platform codec accepts. *)
Definition readme_text (e : env) (f : fs) : option str :=
  match f !! README with
  | Some (File b true _) => universal_newlines <$> env_decode e b
  | _ => None
  end.

(** ** What setuptools does with the declared fields *)

Definition DOT : N := 46.
Definition SLASH : N := 47.
Definition LBRACKET : N := 91.

Fixpoint split_on (sep : N) (s : str) : list str :=
  match s with
  | [] => [[]]
  | c :: t =>
      if c =? sep then [] :: split_on sep t
      else match split_on sep t with
           | w :: ws => (c :: w) :: ws
           | [] => [[c]]
           end
  end.

Fixpoint join_with (sep : N) (l : list str) : str :=
  match l with
  | [] => []
  | [w] => w
  | w :: ws => w ++ sep :: join_with sep ws
  end.




Definition plain_pattern (pat : str) : bool :=
  forallb (λ c, negb (c =? LBRACKET)) pat.







Definition isfile (f : fs) (path : str) : bool :=
  match f !! path with Some (File _ _ _) => true | _ => false end.

Definition isdir (f : fs) (path : str) : bool :=
  match f !! path with Some (Dir _) => true | _ => false end.



(** Version specifiers of the form [>=N.N...] against final releases: the
    release segments are compared left to right, the shorter one padded
    with zeros. *)
Definition digit (c : N) : option N :=
  if (48 <=? c) && (c <=? 57) then Some (c - 48) else None.

Fixpoint decimal_from (acc : N) (s : str) : option N :=
  match s with
  | [] => Some acc
  | c :: t => match digit c with
              | Some d => decimal_from (10 * acc + d) t
              | None => None
              end
  end.

Definition decimal (s : str) : option N :=
  match s with [] => None | _ => decimal_from 0 s end.

Definition parse_release (s : str) : option (list N) :=
  mapM decimal (split_on DOT s).

Fixpoint release_leb (a b : list N) : bool :=
  match a, b with
  | [], _ => true
  | x :: a', [] => (x =? 0) && release_leb a' []
  | x :: a', y :: b' => (x <? y) || ((x =? y) && release_leb a' b')
  end.

Definition specifier_allows (spec : str) (v : list N) : option bool :=
  match spec with
  | 62 :: 61 :: r => (λ m, release_leb m v) <$> parse_release r
  | _ => None
  end.

(** ** A reference build environment

    Concrete decoders, a concrete setuptools and concrete build
    directories, on which the definitions above are run. *)
Module Reference.

(** ISO-8859-1: every byte is the code point of the same number. *)
Definition latin1_decode (b : list byte) : option str :=
  Some (Byte.to_N <$> b).

(** US-ASCII: bytes from 128 up are rejected. *)
Definition ascii_decode (b : list byte) : option str :=
  mapM (λ x, let n := Byte.to_N x in if n <? 128 then Some n else None) b.

Definition encode (s : str) : list byte :=
  (λ c, default x00 (Byte.of_N c)) <$> s.

(** [PackageFinder._find_packages_iter] from the working directory, over
    [os.walk] top-down: the packages directly in a directory are reported
    together, then the walk goes down into each of them.  A directory is
    a package when its name has no dot and it holds an [__init__.py];
    directories that are not packages are not entered, and a directory
    that cannot be listed yields nothing.  Entries of one directory come
    in the order of the map's keys ([os.scandir] promises no order). *)
Definition looks_like_package (f : fs) (dir : str) : bool :=
  isfile f (dir ++ lit "/__init__.py").

Definition child_dirs (f : fs) (above : list str) : list str :=
  omap (λ p, let comps := split_on SLASH p in
             if bool_decide (take (List.length above) comps = above)
                && (List.length comps =? S (List.length above))%nat
                && isdir f p
             then last comps else None)
       (map_to_list f).*1.

Definition listable (f : fs) (dir : list str) : bool :=
  match dir with
  | [] => true
  | _ => match f !! join_with SLASH dir with
         | Some (Dir true) => true
         | _ => false
         end
  end.

Fixpoint walk (fuel : nat) (f : fs) (above : list str) : list str :=
  match fuel with
  | O => []
  | S fuel' =>
      let found :=
        List.filter
          (λ d, forallb (λ c, negb (c =? DOT)) d &&
                looks_like_package f (join_with SLASH (above ++ [d])))
          (if listable f above then child_dirs f above else []) in
      ((λ d, join_with DOT (above ++ [d])) <$> found) ++
      flat_map (λ d, walk fuel' f (above ++ [d])) found
  end.

Definition find_packages (f : fs) : outcome (list str) :=
  Ok (walk (size f) f []).

(** A [setup] run that leaves a metadata file behind, as the [egg_info]
    command does; it reads no file of the project's. *)
Definition pkg_info (a : setup_args) : list byte :=
  encode (lit "Name: " ++ name a ++ LF :: lit "Version: " ++ version a ++ [LF]).

Definition setup (a : setup_args) (f : fs) : outcome unit * fs :=
  (Ok tt, <[name a ++ lit ".egg-info/PKG-INFO" := File (pkg_info a) true true]> f).

(** A [setup] run that is given no command on the command line. *)
Definition setup_no_command (a : setup_args) (f : fs) : outcome unit * fs :=
  (Raise (SetuptoolsError 1), f).

(** A [setup] run that builds a source distribution, as the [sdist]
    command does: it takes the standard files that exist ([sdist.READMES]
    and the setup script) into the archive, reading them, and writes the
    archive under [dist/]. *)
Definition sdist_standards : list str :=
  [lit "README"; lit "README.rst"; lit "README.txt"; lit "README.md";
   lit "setup.py"].

Definition sdist_reads (a : setup_args) (f : fs) : list str :=
  List.filter (isfile f) sdist_standards.

Definition setup_sdist (a : setup_args) (f : fs) : outcome unit * fs :=
  (Ok tt,
   <[lit "dist/" ++ name a ++ lit "-" ++ version a ++ lit ".tar.gz"
       := File (pkg_info a) true true]> f).

(** The patterns setuptools 75 adds to every package's data
    ([build_py._IMPLICIT_DATA_FILES]). *)
Definition implicit_patterns : list str := [lit "*.pyi"; lit "py.typed"].

Definition tools : setuptools :=
  {| find_packages_impl := find_packages; setup_impl := setup;
     setup_reads := λ _ _, []; implicit_data_files := implicit_patterns |}.

Definition tools_no_command : setuptools :=
  {| find_packages_impl := find_packages; setup_impl := setup_no_command;
     setup_reads := λ _ _, []; implicit_data_files := implicit_patterns |}.

Definition tools_sdist : setuptools :=
  {| find_packages_impl := find_packages; setup_impl := setup_sdist;
     setup_reads := sdist_reads; implicit_data_files := implicit_patterns |}.

Definition posix_env : env :=
  {| env_setuptools := Some tools; env_decode := latin1_decode |}.

Definition ascii_env : env :=
  {| env_setuptools := Some tools; env_decode := ascii_decode |}.

Definition bare_env : env :=
  {| env_setuptools := None; env_decode := latin1_decode |}.

Definition no_command_env : env :=
  {| env_setuptools := Some tools_no_command; env_decode := latin1_decode |}.

Definition sdist_env : env :=
  {| env_setuptools := Some tools_sdist; env_decode := latin1_decode |}.

Definition file (text : string) : node :=
  File (list_byte_of_string text) true true.

(** The layout of the binding: the generated module and the native
    library sit directly in the package directory. *)
Definition project : fs :=
  list_to_map
    [ (lit "README.md", file "# pubkycore");
      (lit "setup.py", file "");
      (lit "pubkycore", Dir true);
      (lit "pubkycore/__init__.py", file "");
      (lit "pubkycore/pubkycore.py", file "");
      (lit "pubkycore/libpubkycore.so", file "ELF") ].

(** The same project with another README. *)
Definition project_readme2 : fs :=
  <[lit "README.md" := file "# Pubky Core FFI"]> project.

(** The same project without a README. *)
Definition project_no_readme : fs := delete (lit "README.md") project.

(** The same project with a README that is not ASCII (a byte 0xC3). *)
Definition project_readme_latin1 : fs :=
  <[lit "README.md" := File [x23; x20; xc3; xa9] true true]> project.

(** The same project with Windows line ends in the README. *)
Definition project_readme_crlf : fs :=
  <[lit "README.md" := File [x23; x0d; x0a; x61; x0d; x62] true true]> project.

(** A layout that keeps the native library one directory down, in a
    sub-package. *)
Definition project_nested : fs :=
  list_to_map
    [ (lit "README.md", file "# pubkycore");
      (lit "pubkycore", Dir true);
      (lit "pubkycore/__init__.py", file "");
      (lit "pubkycore/native", Dir true);
      (lit "pubkycore/native/__init__.py", file "");
      (lit "pubkycore/native/libpubkycore.so", file "ELF") ].



(** The same project after an earlier build: the metadata file of that
    build is still there. *)
Definition project_rebuilt : fs :=
  <[lit "pubkycore.egg-info/PKG-INFO" := file "Name: pubkycore-old"]> project.

(** A [setup] that checks its arguments before it runs, as setuptools
    does: a record without a name is refused. *)
Definition setup_picky (a : setup_args) (f : fs) : outcome unit * fs :=
  match name a with
  | [] => (Raise (SetuptoolsError 3), f)
  | _ => setup a f
  end.

Definition tools_picky : setuptools :=
  {| find_packages_impl := find_packages; setup_impl := setup_picky;
     setup_reads := λ _ _, []; implicit_data_files := implicit_patterns |}.

Definition picky_env : env :=
  {| env_setuptools := Some tools_picky; env_decode := latin1_decode |}.

(** A setuptools whose package discovery fails. *)
Definition find_packages_broken (f : fs) : outcome (list str) :=
  Raise (SetuptoolsError 2).

Definition tools_broken_finder : setuptools :=
  {| find_packages_impl := find_packages_broken; setup_impl := setup;
     setup_reads := λ _ _, []; implicit_data_files := implicit_patterns |}.

Definition broken_finder_env : env :=
  {| env_setuptools := Some tools_broken_finder;
     env_decode := latin1_decode |}.

End Reference.

(** ** The script as syntax

    The same two statements as a syntax tree, in the vocabulary of
    Python's [ast] module, with an evaluator for the statement and
    expression forms of the fragment.  The tree is what the properties of
    the script's text (no branch, no loop, no handler, no assignment, no
    [with]) are stated on; the evaluator ties it to [manifest]. *)
Module Syntax.

Local Open Scope string_scope.

Inductive expr :=
| Constant (value : str)
| Name (id : string)
| List_ (elts : list expr)
| Dict (items : list (expr * expr))
| Attribute (value : expr) (attr : string)
| Call (func : expr) (args : list expr) (keywords : list (string * expr))
| IfExp (test body orelse : expr).

Inductive stmt :=
| ImportFrom (module : string) (names : list string)
| Expr (value : expr)
| Assign (target : string) (value : expr)
| If (test : expr) (body orelse : list stmt)
| While (test : expr) (body : list stmt)
| For (target : string) (iter : expr) (body : list stmt)
| Try (body handler : list stmt)
| With (item : expr) (target : string) (body : list stmt).

(** [bindings/python/setup.py], lines 1 to 23. *)
Definition manifest_ast : list stmt :=
  [ ImportFrom "setuptools" ["setup"; "find_packages"];
    Expr (Call (Name "setup") []
      [ ("name", Constant (lit "pubkycore"));
        ("version", Constant (lit "0.1.0"));
        ("packages", Call (Name "find_packages") [] []);
        ("package_data",
          Dict [ (Constant (lit "pubkycore"),
                  List_ [ Constant (lit "*.so");
                          Constant (lit "*.dylib");
                          Constant (lit "*.dll") ]) ]);
        ("install_requires", List_ []);
        ("author", Constant (lit "Pubky"));
        ("author_email", Constant (lit ""));
        ("description",
          Constant (lit "Python bindings for the Pubky Mobile SDK"));
        ("long_description",
          Call (Attribute (Call (Name "open")
                                [Constant (lit "README.md")] [])
                          "read") [] []);
        ("long_description_content_type", Constant (lit "text/markdown"));
        ("url", Constant (lit ""));
        ("classifiers",
          List_ [ Constant (lit "Programming Language :: Python :: 3");
                  Constant (lit "License :: OSI Approved :: MIT License");
                  Constant (lit "Operating System :: OS Independent") ]);
        ("python_requires", Constant (lit ">=3.6")) ]) ].

(** *** Properties of the text *)

Fixpoint expr_branch_free (x : expr) : bool :=
  match x with
  | Constant _ | Name _ => true
  | List_ elts => forallb expr_branch_free elts
  | Dict items =>
      forallb (λ kv, expr_branch_free (fst kv) && expr_branch_free (snd kv))
              items
  | Attribute v _ => expr_branch_free v
  | Call f args kws =>
      expr_branch_free f && forallb expr_branch_free args &&
      forallb (λ kv, expr_branch_free (snd kv)) kws
  | IfExp _ _ _ => false
  end.

Inductive construct :=
| Conditional | Loop | Handler | Assignment | ContextManager.

(** The compound or binding constructs a statement is made with, at any
    depth. *)
Fixpoint constructs (s : stmt) : list construct :=
  match s with
  | ImportFrom _ _ => []
  | Expr x => if expr_branch_free x then [] else [Conditional]
  | Assign _ x =>
      Assignment :: (if expr_branch_free x then [] else [Conditional])
  | If _ body orelse =>
      Conditional ::
        (flat_map constructs body ++ flat_map constructs orelse)%list
  | While _ body => Loop :: flat_map constructs body
  | For _ _ body => Loop :: Assignment :: flat_map constructs body
  | Try body handler =>
      Handler ::
        (flat_map constructs body ++ flat_map constructs handler)%list
  | With _ _ body =>
      ContextManager :: Assignment :: flat_map constructs body
  end.


(** The number of calls of [f] in an expression, at any depth: calls of
    the name [f] and calls of a method [f]. *)
Fixpoint expr_calls (f : string) (x : expr) : nat :=
  match x with
  | Constant _ | Name _ => 0
  | List_ elts => list_sum (List.map (expr_calls f) elts)
  | Dict items =>
      list_sum (List.map (λ kv, expr_calls f (fst kv) + expr_calls f (snd kv))
                         items)
  | Attribute v _ => expr_calls f v
  | Call g args kws =>
      (match g with
       | Name id => if String.eqb f id then 1 else 0
       | Attribute v attr =>
           (if String.eqb f attr then 1 else 0) + expr_calls f v
       | _ => expr_calls f g
       end
       + list_sum (List.map (expr_calls f) args)
       + list_sum (List.map (λ kv, expr_calls f (snd kv)) kws))
  | IfExp test body orelse =>
      expr_calls f test + expr_calls f body + expr_calls f orelse
  end%nat.

Fixpoint stmt_calls (f : string) (s : stmt) : nat :=
  match s with
  | ImportFrom _ _ => 0
  | Expr x | Assign _ x => expr_calls f x
  | If test body orelse =>
      expr_calls f test + list_sum (List.map (stmt_calls f) body)
      + list_sum (List.map (stmt_calls f) orelse)
  | While test body | For _ test body | With test _ body =>
      expr_calls f test + list_sum (List.map (stmt_calls f) body)
  | Try body handler =>
      list_sum (List.map (stmt_calls f) body)
      + list_sum (List.map (stmt_calls f) handler)
  end%nat.

(** *** Evaluation *)

Inductive value :=
| VNone
| VStr (s : str)
| VList (l : list value)
| VDict (l : list (value * value))
| VFile (fd : nat)
| VOpen
| VRead (fd : nat)
| VClose (fd : nat)
| VSetup (f : setup_args → Py unit)
| VFindPackages (f : unit → Py (list str)).

(** The module namespace: the most recent binding of a name comes
    first. *)
Record istate := {
  i_globals : list (string * value);
  i_state : state
}.

(** [None]: the evaluator ran out of fuel. *)
Definition Interp (A : Type) : Type :=
  env → istate → option (outcome A * istate).

Definition iret {A} (a : A) : Interp A := λ _ s, Some (Ok a, s).

Definition iraise {A} (x : exn) : Interp A := λ _ s, Some (Raise x, s).

Definition ibind {A B} (c : Interp A) (k : A → Interp B) : Interp B :=
  λ e s,
    match c e s with
    | None => None
    | Some (Ok a, s') => k a e s'
    | Some (Raise x, s') => Some (Raise x, s')
    end.

(** [try: c] with a bare [except: h]. *)
Definition icatch {A} (c h : Interp A) : Interp A := λ e s,
  match c e s with
  | None => None
  | Some (Ok a, s') => Some (Ok a, s')
  | Some (Raise _, s') => h e s'
  end.

(** [c] followed by [fin], whether or not [c] raised. *)
Definition ifinally {A} (c : Interp A) (fin : Interp unit) : Interp A :=
  λ e s,
    match c e s with
    | None => None
    | Some (r, s') =>
        match fin e s' with
        | None => None
        | Some (Ok _, s'') => Some (r, s'')
        | Some (Raise x, s'') => Some (Raise x, s'')
        end
    end.

Definition lift {A} (c : Py A) : Interp A := λ e s,
  let '(r, s') := c e (i_state s) in
  Some (r, {| i_globals := i_globals s; i_state := s' |}).

Definition bind_name (id : string) (v : value) : Interp unit := λ _ s,
  Some (Ok tt, {| i_globals := (id, v) :: i_globals s;
                  i_state := i_state s |}).

(** Module globals first, then the builtins; [open] is the one builtin
    of the model. *)
Definition load_name (id : string) : Interp value := λ _ s,
  match List.find (λ b, String.eqb (fst b) id) (i_globals s) with
  | Some b => Some (Ok (snd b), s)
  | None =>
      if String.eqb id "open" then Some (Ok VOpen, s)
      else Some (Raise (NameError id), s)
  end.

Fixpoint imap {A B} (f : A → Interp B) (l : list A) : Interp (list B) :=
  match l with
  | [] => iret []
  | a :: l' => ibind (f a) (λ b, ibind (imap f l') (λ bs, iret (b :: bs)))
  end.

Fixpoint iseq {A} (run : A → Interp unit) (l : list A) : Interp unit :=
  match l with
  | [] => iret tt
  | a :: l' => ibind (run a) (λ _, iseq run l')
  end.

Definition truthy (v : value) : bool :=
  match v with
  | VNone | VStr [] | VList [] | VDict [] => false
  | _ => true
  end.

Definition as_str (v : value) : option str :=
  match v with VStr s => Some s | _ => None end.

Definition as_str_list (v : value) : option (list str) :=
  match v with VList l => mapM as_str l | _ => None end.

(** A dict display: a later item replaces an earlier one with the same
    key. *)
Definition as_patterns (v : value) : option (gmap str (list str)) :=
  match v with
  | VDict items =>
      kvs ← mapM (λ kv, k ← as_str (fst kv); l ← as_str_list (snd kv);
                        Some (k, l)) items;
      Some (foldl (λ m kv, <[fst kv := snd kv]> m) ∅ kvs)
  | _ => None
  end.

Definition keyword (k : string) (kws : list (string * value))
  : option value :=
  snd <$> List.find (λ kv, String.eqb (fst kv) k) kws.

(** The keyword arguments of a call of [setup], as the record of the
    thirteen keywords the manifest passes. *)
Definition to_setup_args (kws : list (string * value)) : option setup_args :=
  name_ ← keyword "name" kws ≫= as_str;
  version_ ← keyword "version" kws ≫= as_str;
  packages_ ← keyword "packages" kws ≫= as_str_list;
  package_data_ ← keyword "package_data" kws ≫= as_patterns;
  install_requires_ ← keyword "install_requires" kws ≫= as_str_list;
  author_ ← keyword "author" kws ≫= as_str;
  author_email_ ← keyword "author_email" kws ≫= as_str;
  description_ ← keyword "description" kws ≫= as_str;
  long_description_ ← keyword "long_description" kws ≫= as_str;
  long_description_content_type_ ←
    keyword "long_description_content_type" kws ≫= as_str;
  url_ ← keyword "url" kws ≫= as_str;
  classifiers_ ← keyword "classifiers" kws ≫= as_str_list;
  python_requires_ ← keyword "python_requires" kws ≫= as_str;
  Some {| name := name_; version := version_; packages := packages_;
          package_data := package_data_;
          install_requires := install_requires_;
          author := author_; author_email := author_email_;
          description := description_;
          long_description := long_description_;
          long_description_content_type := long_description_content_type_;
          url := url_; classifiers := classifiers_;
          python_requires := python_requires_ |}.

Definition as_mode (v : value) : option open_mode :=
  match v with
  | VStr [114] => Some ModeR
  | VStr [119] => Some ModeW
  | VStr [97] => Some ModeA
  | _ => None
  end.

Definition getattr (v : value) (attr : string) : Interp value :=
  match v with
  | VFile fd =>
      if String.eqb attr "read" then iret (VRead fd)
      else if String.eqb attr "close" then iret (VClose fd)
      else iraise (AttributeError attr)
  | _ => iraise (AttributeError attr)
  end.

Definition apply (f : value) (args : list value)
    (kws : list (string * value)) : Interp value :=
  match f, args, kws with
  | VOpen, [VStr file], [] =>
      ibind (lift (open file mode_default)) (λ fd, iret (VFile fd))
  | VOpen, [VStr file; m], [] =>
      match as_mode m with
      | Some mode => ibind (lift (open file mode)) (λ fd, iret (VFile fd))
      | None => iraise ValueError
      end
  | VRead fd, [], [] => ibind (lift (read fd)) (λ s, iret (VStr s))
  | VClose fd, [], [] => ibind (lift (close fd)) (λ _, iret VNone)
  | VFindPackages f, [], [] =>
      ibind (lift (f tt)) (λ l, iret (VList (VStr <$> l)))
  | VSetup f, [], _ =>
      match to_setup_args kws with
      | Some a => ibind (lift (f a)) (λ _, iret VNone)
      | None => iraise TypeError
      end
  | _, _, _ => iraise TypeError
  end.

(** [from module import names]; setuptools is the one module of the
    model. *)
Definition import_from (module : string) (names : list string)
  : Interp unit :=
  if String.eqb module "setuptools" then
    ibind (lift from_setuptools_import_setup_find_packages)
      (λ '(setup, find_packages),
         iseq (λ id,
                 if String.eqb id "setup"
                 then bind_name id (VSetup setup)
                 else if String.eqb id "find_packages"
                 then bind_name id (VFindPackages find_packages)
                 else iraise (ImportError id))
              names)
  else iraise (ModuleNotFoundError (lit module)).

Fixpoint eval (n : nat) (x : expr) : Interp value :=
  match n with
  | O => λ _ _, None
  | S n =>
      match x with
      | Constant s => iret (VStr s)
      | Name id => load_name id
      | List_ elts => ibind (imap (eval n) elts) (λ vs, iret (VList vs))
      | Dict items =>
          ibind (imap (λ kv, ibind (eval n (fst kv)) (λ k,
                             ibind (eval n (snd kv)) (λ v, iret (k, v))))
                      items)
                (λ kvs, iret (VDict kvs))
      | Attribute v attr => ibind (eval n v) (λ o, getattr o attr)
      | Call f args kws =>
          ibind (eval n f) (λ fv,
          ibind (imap (eval n) args) (λ avs,
          ibind (imap (λ kv, ibind (eval n (snd kv))
                                   (λ v, iret (fst kv, v))) kws) (λ kvs,
          apply fv avs kvs)))
      | IfExp test body orelse =>
          ibind (eval n test) (λ t,
            if truthy t then eval n body else eval n orelse)
      end
  end.

Fixpoint exec (n : nat) (s : stmt) : Interp unit :=
  match n with
  | O => λ _ _, None
  | S n =>
      match s with
      | ImportFrom module names => import_from module names
      | Expr x => ibind (eval n x) (λ _, iret tt)
      | Assign target x => ibind (eval n x) (bind_name target)
      | If test body orelse =>
          ibind (eval n test) (λ t,
            if truthy t then iseq (exec n) body else iseq (exec n) orelse)
      | While test body =>
          ibind (eval n test) (λ t,
            if truthy t
            then ibind (iseq (exec n) body) (λ _, exec n (While test body))
            else iret tt)
      | For target iter body =>
          ibind (eval n iter) (λ it,
            match it with
            | VList vs =>
                iseq (λ v, ibind (bind_name target v)
                                 (λ _, iseq (exec n) body)) vs
            | _ => iraise TypeError
            end)
      | Try body handler =>
          icatch (iseq (exec n) body) (iseq (exec n) handler)
      | With item target body =>
          ibind (eval n item) (λ v,
            match v with
            | VFile fd =>
                ibind (bind_name target v) (λ _,
                ifinally (iseq (exec n) body) (lift (close fd)))
            | _ => iraise (AttributeError "__enter__")
            end)
      end
  end.

(** Running a module body in a fresh interpreter. *)
Definition run_module (n : nat) (body : list stmt) (e : env) (f : fs)
  : option (outcome unit * state) :=
  match iseq (exec n) body e {| i_globals := []; i_state := boot f |} with
  | Some (r, s) => Some (r, i_state s)
  | None => None
  end.

End Syntax.

(** ** Derived notions used in the statements *)

(** The argument records [setup] was called with during one evaluation. *)
Definition received (e : env) (f : fs) : list setup_args :=
  setup_calls (st_trace (evaluate e f).2).

(** The record [setup_keywords] builds once its two computed arguments are
    known (see [evaluate_spec] below, which shows it does). *)
Definition keywords_with (pk : list str) (txt : str) : setup_args :=
  {| name := lit "pubkycore";
     version := lit "0.1.0";
     packages := pk;
     package_data :=
       {[ lit "pubkycore" := [lit "*.so"; lit "*.dylib"; lit "*.dll"] ]};
     install_requires := [];
     author := lit "Pubky";
     author_email := lit "";
     description := lit "Python bindings for the Pubky Mobile SDK";
     long_description := txt;
     long_description_content_type := lit "text/markdown";
     url := lit "";
     classifiers :=
       [ lit "Programming Language :: Python :: 3";
         lit "License :: OSI Approved :: MIT License";
         lit "Operating System :: OS Independent" ];
     python_requires := lit ">=3.6" |}.

(** The operations of a complete evaluation, in order. *)
Definition script_operations (a : setup_args) : list event :=
  [ EvImport (lit "setuptools");
    EvFindPackages;
    EvOpen README ModeR;
    EvRead 0;
    EvSetup a ].

(** The file object that [open("README.md")] creates, after [read()]. *)
Definition readme_object : file_object :=
  {| fo_path := README; fo_mode := ModeR; fo_closed := false; fo_eof := true |}.

(** Where an evaluation stops, and with what. *)
Inductive run :=
| NoSetuptools
| FindPackagesRaised (x : exn)
| OpenRaised (pk : list str) (x : exn)
| DecodeRaised (pk : list str)
| SetupReached (m : setuptools) (pk : list str) (txt : str).

Definition run_of (e : env) (f : fs) : run :=
  match env_setuptools e with
  | None => NoSetuptools
  | Some m =>
      match find_packages_impl m f with
      | Raise x => FindPackagesRaised x
      | Ok pk =>
          match f !! README with
          | None => OpenRaised pk (FileNotFoundError README)
          | Some (Dir true) => OpenRaised pk (IsADirectoryError README)
          | Some (Dir false) => OpenRaised pk (PermissionError README)
          | Some (File b false _) => OpenRaised pk (PermissionError README)
          | Some (File b true _) =>
              match env_decode e b with
              | None => DecodeRaised pk
              | Some t => SetupReached m pk (universal_newlines t)
              end
          end
      end
  end.

Definition run_result (f : fs) (r : run) : outcome unit * state :=
  match r with
  | NoSetuptools =>
      (Raise (ModuleNotFoundError (lit "setuptools")),
       {| st_fs := f; st_files := [];
          st_trace := [EvImport (lit "setuptools")];
          st_tool_reads := [] |})
  | FindPackagesRaised x =>
      (Raise x,
       {| st_fs := f; st_files := [];
          st_trace := [EvImport (lit "setuptools"); EvFindPackages];
          st_tool_reads := [] |})
  | OpenRaised pk x =>
      (Raise x,
       {| st_fs := f; st_files := [];
          st_trace := [EvImport (lit "setuptools"); EvFindPackages;
                       EvOpen README ModeR];
          st_tool_reads := [] |})
  | DecodeRaised pk =>
      (Raise UnicodeDecodeError,
       {| st_fs := f;
          st_files := [readme_object];
          st_trace := [EvImport (lit "setuptools"); EvFindPackages;
                       EvOpen README ModeR; EvRead 0];
          st_tool_reads := [] |})
  | SetupReached m pk txt =>
      let a := keywords_with pk txt in
      ((setup_impl m a f).1,
       {| st_fs := (setup_impl m a f).2;
          st_files := [readme_object];
          st_trace := script_operations a;
          st_tool_reads := setup_reads m a f |})
  end.

(** * Evaluation, case by case *)

(** Every evaluation is one of the five runs. *)
Lemma evaluate_spec (e : env) (f : fs) :
  evaluate e f = run_result f (run_of e f).
Proof.
  unfold evaluate, manifest, run_of, mbind, Py_bind,
    from_setuptools_import_setup_find_packages.
  destruct (env_setuptools e) as [m|]; simpl; [|reflexivity].
  unfold setup_keywords, mbind, Py_bind, call_find_packages; simpl.
  destruct (find_packages_impl m f) as [pk|x]; simpl; [|reflexivity].
  unfold open, read, mode_default; simpl.
  destruct (f !! README) as [[[|]|b [|] w]|] eqn:Hf; simpl; try reflexivity.
  rewrite Hf.
  destruct (env_decode e b) as [t|]; simpl; [|reflexivity].
  unfold call_setup; simpl.
  destruct (setup_impl m _ f) as [r f']; reflexivity.
Qed.

Lemma received_spec (e : env) (f : fs) :
  received e f =
  match run_of e f with
  | SetupReached _ pk txt => [keywords_with pk txt]
  | _ => []
  end.
Proof.
  unfold received. rewrite evaluate_spec.
  destruct (run_of e f); reflexivity.
Qed.

Lemma received_inv (e : env) (f : fs) (a : setup_args) :
  a ∈ received e f →
  ∃ m pk txt, run_of e f = SetupReached m pk txt ∧ a = keywords_with pk txt.
Proof.
  rewrite received_spec.
  destruct (run_of e f) as [| | | |m pk txt]; intros Ha;
    try (apply elem_of_nil in Ha; contradiction).
  apply list_elem_of_singleton in Ha. eauto.
Qed.

(** Every record [setup] receives is the closed form, for some packages
    and some text. *)
Lemma received_keywords (e : env) (f : fs) (a : setup_args) :
  a ∈ received e f → a = keywords_with (packages a) (long_description a).
Proof.
  intros Ha. destruct (received_inv e f a Ha) as (m & pk & txt & _ & ->).
  reflexivity.
Qed.

Lemma run_of_reached (e : env) (f : fs) m pk txt :
  run_of e f = SetupReached m pk txt →
  env_setuptools e = Some m ∧
  find_packages_impl m f = Ok pk ∧
  readme_text e f = Some txt.
Proof.
  unfold run_of, readme_text.
  destruct (env_setuptools e) as [m'|]; [|discriminate].
  destruct (find_packages_impl m' f) as [pk'|] eqn:Hpk; [|discriminate].
  destruct (f !! README) as [[[|]|b [|] w]|]; try discriminate.
  destruct (env_decode e b) as [t|]; [|discriminate].
  intros [= -> -> <-]. auto.
Qed.

(** An evaluation completes without an exception only through [setup]. *)
Lemma evaluate_ok_inv (e : env) (f : fs) :
  (evaluate e f).1 = Ok tt →
  ∃ m pk txt, run_of e f = SetupReached m pk txt ∧
              (setup_impl m (keywords_with pk txt) f).1 = Ok tt.
Proof.
  rewrite evaluate_spec.
  destruct (run_of e f) as [| | | |m pk txt]; simpl; try discriminate.
  eauto.
Qed.

(** X1.  The four places an exception can come from: evaluation raises
    exactly when setuptools cannot be imported, or [find_packages()]
    raises, or [README.md] cannot be read, or [setup] itself raises on the
    arguments built. *)
Lemma evaluate_raises_causes (e : env) (f : fs) :
  raises (evaluate e f).1 ↔
  env_setuptools e = None ∨
  ∃ m, env_setuptools e = Some m ∧
       (raises (find_packages_impl m f) ∨
        ∃ pk, find_packages_impl m f = Ok pk ∧
              (readme_text e f = None ∨
               ∃ txt, readme_text e f = Some txt ∧
                      raises (setup_impl m (keywords_with pk txt) f).1)).
Proof.
  rewrite evaluate_spec. unfold run_of, readme_text.
  destruct (env_setuptools e) as [m|]; simpl; [|tauto].
  split.
  - intros H. right. exists m. split; [reflexivity|].
    destruct (find_packages_impl m f) as [pk|x]; simpl; [|tauto].
    right. exists pk. split; [reflexivity|].
    destruct (f !! README) as [[[|]|b [|] w]|]; simpl; auto.
    destruct (env_decode e b) as [t|]; simpl; auto.
    right. exists (universal_newlines t). auto.
  - intros [?|(m' & [= <-] & H)]; [discriminate|].
    destruct (find_packages_impl m f) as [pk|x]; simpl; [|exact I].
    destruct H as [[]|(pk' & [= <-] & H)].
    destruct (f !! README) as [[[|]|b [|] w]|]; simpl; try exact I.
    destruct (env_decode e b) as [t|]; simpl; [|exact I].
    destruct H as [?|(txt & [= <-] & H)]; [discriminate|exact H].
Qed.


(** ** Runs in the reference environment *)

Lemma project_received :
  received Reference.posix_env Reference.project
  = [keywords_with [lit "pubkycore"] (lit "# pubkycore")].
Proof. vm_compute. reflexivity. Qed.

Lemma project_readme2_received :
  received Reference.posix_env Reference.project_readme2
  = [keywords_with [lit "pubkycore"] (lit "# Pubky Core FFI")].
Proof. vm_compute. reflexivity. Qed.

Lemma project_nested_received :
  received Reference.posix_env Reference.project_nested
  = [keywords_with [lit "pubkycore"; lit "pubkycore.native"]
                   (lit "# pubkycore")].
Proof. vm_compute. reflexivity. Qed.


Lemma project_in_received :
  keywords_with [lit "pubkycore"] (lit "# pubkycore")
    ∈ received Reference.posix_env Reference.project.
Proof.
  rewrite project_received. apply list_elem_of_singleton. reflexivity.
Qed.

Lemma project_completes :
  (evaluate Reference.posix_env Reference.project).1 = Ok tt.
Proof. vm_compute. reflexivity. Qed.

(** Each way of failing, run. *)
Lemma reference_failures :
  (evaluate Reference.bare_env Reference.project).1
    = Raise (ModuleNotFoundError (lit "setuptools")) ∧
  (evaluate Reference.posix_env Reference.project_no_readme).1
    = Raise (FileNotFoundError README) ∧
  (evaluate Reference.posix_env
     (<[README := Dir true]> Reference.project)).1
    = Raise (IsADirectoryError README) ∧
  (evaluate Reference.posix_env
     (<[README := Dir false]> Reference.project)).1
    = Raise (PermissionError README) ∧
  (evaluate Reference.posix_env
     (<[README := File [] false true]> Reference.project)).1
    = Raise (PermissionError README) ∧
  (evaluate Reference.ascii_env Reference.project_readme_latin1).1
    = Raise UnicodeDecodeError ∧
  (evaluate Reference.no_command_env Reference.project).1
    = Raise (SetuptoolsError 1).
Proof. repeat split; vm_compute; reflexivity. Qed.

(** The runtime model does write when asked to: the same [open] in mode
    ['w'] empties the file, and [close] marks the file object closed. *)
Lemma open_for_writing_truncates :
  st_fs (open README ModeW Reference.posix_env
           (boot Reference.project)).2 !! README
    = Some (File [] true true) ∧
  Reference.project !! README = Some (Reference.file "# pubkycore").
Proof. split; vm_compute; reflexivity. Qed.

Lemma close_closes :
  fo_closed <$>
    st_files ((fd ← open README ModeR; close fd) Reference.posix_env
                (boot Reference.project)).2
  = [true].
Proof. vm_compute. reflexivity. Qed.

(** * Paths and patterns *)















(** They have no bracket expression, so [fnmatchcase] covers them. *)
Lemma declared_patterns_plain :
  forallb plain_pattern [lit "*.so"; lit "*.dylib"; lit "*.dll"] = true.
Proof. reflexivity. Qed.


(** * Version specifiers *)

Lemma release_leb_3_6 (v : list N) :
  release_leb [3; 6] v = true ↔
  3 < nth 0 v 0 ∨ (nth 0 v 0 = 3 ∧ 6 ≤ nth 1 v 0).
Proof.
  destruct v as [|major [|minor rest]]; cbn [release_leb nth];
    repeat first [ rewrite orb_true_iff | rewrite andb_true_iff
                 | rewrite N.ltb_lt | rewrite N.eqb_eq ];
    intuition lia.
Qed.

(** Releases on either side of the requirement. *)
Lemma python_requires_examples :
  specifier_allows (lit ">=3.6") [3; 6] = Some true ∧
  specifier_allows (lit ">=3.6") [3; 12; 1] = Some true ∧
  specifier_allows (lit ">=3.6") [3; 5; 9] = Some false ∧
  specifier_allows (lit ">=3.6") [2; 7; 18] = Some false.
Proof. repeat split; reflexivity. Qed.

(** * The syntax tree runs as the embedded script *)




(** The evaluator does close a file opened in a [with] statement: the
    same read written as [with open("README.md") as f: f.read()] leaves
    the file object closed. *)
Lemma with_statement_closes :
  (λ r, fo_closed <$> st_files r.2) <$>
    Syntax.run_module 6
      [Syntax.With
         (Syntax.Call (Syntax.Name "open")
                      [Syntax.Constant (lit "README.md")] [])
         "f"
         [Syntax.Expr
            (Syntax.Call (Syntax.Attribute (Syntax.Name "f") "read") [] [])]]
      Reference.posix_env Reference.project
  = Some [true].
Proof. vm_compute. reflexivity. Qed.

(** * The claims *)

(** ** C1: when evaluation raises *)

Section Failure.

(** A build environment in which setuptools is installed and
    [find_packages()] returns. *)
Context (e : env) (f : fs) (m : setuptools) (pk : list str).
Hypothesis Hm : env_setuptools e = Some m.
Hypothesis Hpk : find_packages_impl m f = Ok pk.

(** C1, as amended.  In a build environment where setuptools can be
    imported, [find_packages()] returns and the script's own call of
    [setup] returns normally, evaluating the manifest raises exactly when
    [README.md] cannot be read: when it is missing, is a directory, may
    not be read, or holds bytes the platform codec rejects.  In
    particular, under those provisos an existing, readable, decodable
    [README.md] makes evaluation complete without error. *)
Theorem evaluate_raises_iff :
  (∀ txt, readme_text e f = Some txt →
          (setup_impl m (keywords_with pk txt) f).1 = Ok tt) →
  raises (evaluate e f).1 ↔ readme_text e f = None.
Proof.
  intros Hsetup. revert Hsetup.
  rewrite evaluate_spec. unfold run_of, readme_text. rewrite Hm, Hpk.
  destruct (f !! README) as [[[|]|b [|] w]|]; simpl; try tauto.
  destruct (env_decode e b) as [t|]; simpl; [|tauto].
  intros Hsetup. rewrite (Hsetup _ eq_refl). simpl.
  split; [contradiction|discriminate].
Qed.

(** X2.  Which exception a failed read of [README.md] surfaces as on a
    POSIX host, once the import and [find_packages()] have succeeded:
    [FileNotFoundError] for a missing file, [IsADirectoryError] for a
    directory the process may read, [PermissionError] for a file or a
    directory the process may not read, and [UnicodeDecodeError] for
    bytes the platform codec rejects. *)
Lemma evaluate_readme_failure :
  readme_text e f = None →
  (evaluate e f).1 =
    Raise match f !! README with
          | None => FileNotFoundError README
          | Some (Dir true) => IsADirectoryError README
          | Some (Dir false) => PermissionError README
          | Some (File _ false _) => PermissionError README
          | Some (File _ true _) => UnicodeDecodeError
          end.
Proof.
  rewrite evaluate_spec. unfold run_of, readme_text. rewrite Hm, Hpk.
  destruct (f !! README) as [[[|]|b [|] w]|]; simpl; try reflexivity.
  destruct (env_decode e b); simpl; [discriminate|reflexivity].
Qed.

End Failure.

(** A [setup] that checks its arguments: it refuses a record without a
    name.  The script's own call passes. *)
Lemma evaluate_raises_iff_witness :
  env_setuptools Reference.picky_env = Some Reference.tools_picky ∧
  find_packages_impl Reference.tools_picky Reference.project
    = Ok [lit "pubkycore"] ∧
  (∀ txt, readme_text Reference.picky_env Reference.project = Some txt →
          (setup_impl Reference.tools_picky
             (keywords_with [lit "pubkycore"] txt) Reference.project).1
          = Ok tt) ∧
  (raises (evaluate Reference.picky_env Reference.project).1 ↔
   readme_text Reference.picky_env Reference.project = None).
Proof.
  assert (Hpk : find_packages_impl Reference.tools_picky Reference.project
                = Ok [lit "pubkycore"]) by (vm_compute; reflexivity).
  assert (Hs : ∀ txt,
             readme_text Reference.picky_env Reference.project = Some txt →
             (setup_impl Reference.tools_picky
                (keywords_with [lit "pubkycore"] txt) Reference.project).1
             = Ok tt) by (intros txt _; reflexivity).
  split; [reflexivity|]. split; [exact Hpk|]. split; [exact Hs|].
  exact (evaluate_raises_iff Reference.picky_env Reference.project
           Reference.tools_picky [lit "pubkycore"] eq_refl Hpk Hs).
Defined.

(** C1 as stated fails: with [README.md] in place and readable, the
    import on line 1 raises when setuptools is not installed. *)
Lemma evaluate_raises_without_setuptools :
  readme_text Reference.bare_env Reference.project = Some (lit "# pubkycore") ∧
  (evaluate Reference.bare_env Reference.project).1 =
    Raise (ModuleNotFoundError (lit "setuptools")) ∧
  ¬ (raises (evaluate Reference.bare_env Reference.project).1 ↔
     readme_text Reference.bare_env Reference.project = None).
Proof.
  assert (H1 : readme_text Reference.bare_env Reference.project
               = Some (lit "# pubkycore")) by (vm_compute; reflexivity).
  assert (H2 : (evaluate Reference.bare_env Reference.project).1
               = Raise (ModuleNotFoundError (lit "setuptools")))
    by (vm_compute; reflexivity).
  split; [exact H1|]. split; [exact H2|].
  rewrite H1, H2. simpl. intros [H _]. specialize (H I). discriminate.
Qed.

(** ** C2, C3, C8: the declared fields *)

Section Received.

(** Whatever the environment, consider an argument record [a] that [setup]
    was called with. *)
Context (e : env) (f : fs) (a : setup_args).
Hypothesis Ha : a ∈ received e f.


(** C3.  Whenever [setup] is called, in whatever environment, it receives
    [name = "pubkycore"], [version = "0.1.0"], [author = "Pubky"],
    [install_requires = []] and exactly the three classifier literals; so
    these fields agree between any two runs. *)
Theorem static_metadata (e' : env) (f' : fs) (a' : setup_args) :
  a' ∈ received e' f' →
  (name a = lit "pubkycore" ∧
   version a = lit "0.1.0" ∧
   author a = lit "Pubky" ∧
   install_requires a = [] ∧
   classifiers a = [ lit "Programming Language :: Python :: 3";
                     lit "License :: OSI Approved :: MIT License";
                     lit "Operating System :: OS Independent" ]) ∧
  (name a = name a' ∧
   version a = version a' ∧
   author a = author a' ∧
   install_requires a = install_requires a' ∧
   classifiers a = classifiers a').
Proof.
  intros Ha'.
  rewrite (received_keywords e f a Ha), (received_keywords e' f' a' Ha').
  repeat split; reflexivity.
Qed.

(** C8.  The manifest declares [python_requires = ">=3.6"] and an empty
    [install_requires]: a release of Python satisfies the requirement
    exactly when it is 3.6 or newer, and the number of declared run-time
    dependencies is zero. *)
Theorem python_requires_and_dependencies :
  python_requires a = lit ">=3.6" ∧
  install_requires a = [] ∧
  List.length (install_requires a) = 0%nat ∧
  (∀ v, ∃ ok, specifier_allows (python_requires a) v = Some ok ∧
              (ok = true ↔ 3 < nth 0 v 0 ∨ (nth 0 v 0 = 3 ∧ 6 ≤ nth 1 v 0))).
Proof.
  rewrite (received_keywords e f a Ha).
  split; [reflexivity|]. split; [reflexivity|]. split; [reflexivity|].
  intros v. exists (release_leb [3; 6] v). split; [reflexivity|].
  apply release_leb_3_6.
Qed.

End Received.



Lemma static_metadata_witness :
  keywords_with [lit "pubkycore"] (lit "# pubkycore")
    ∈ received Reference.posix_env Reference.project ∧
  keywords_with [lit "pubkycore"; lit "pubkycore.native"] (lit "# pubkycore")
    ∈ received Reference.posix_env Reference.project_nested ∧
  name (keywords_with [lit "pubkycore"] (lit "# pubkycore")) = lit "pubkycore".
Proof.
  assert (H2 : keywords_with [lit "pubkycore"; lit "pubkycore.native"]
                 (lit "# pubkycore")
               ∈ received Reference.posix_env Reference.project_nested).
  { rewrite project_nested_received. apply list_elem_of_singleton.
    reflexivity. }
  split; [exact project_in_received|]. split; [exact H2|].
  exact (proj1 (proj1 (static_metadata _ _ _ project_in_received _ _ _ H2))).
Defined.

Lemma python_requires_and_dependencies_witness :
  keywords_with [lit "pubkycore"] (lit "# pubkycore")
    ∈ received Reference.posix_env Reference.project ∧
  python_requires (keywords_with [lit "pubkycore"] (lit "# pubkycore"))
    = lit ">=3.6".
Proof.
  split; [exact project_in_received|].
  exact (proj1 (python_requires_and_dependencies _ _ _ project_in_received)).
Defined.

(** ** C4: one declarative call *)



(** ** C5, C7, C9, C10: what one evaluation does *)

Section Effects.

Context (e : env) (f : fs).

Ltac distinct_events :=
  repeat (apply NoDup_cons; split;
          [ let H := fresh in
            intros H;
            repeat (apply elem_of_cons in H as [H|H]; [discriminate H|]);
            apply elem_of_nil in H; exact H
          | ]);
  apply NoDup_nil; exact I.

(** C5, as amended.  The script performs no write of its own: its only
    [open] is of [README.md], in mode ['r']; the file system it hands to
    [setup] is the one it started in, so that after evaluation the file
    system is what [setup] made of the initial one; and an evaluation
    that stops before [setup] leaves every file as it was. *)
Theorem evaluation_leaves_files_alone :
  let s := (evaluate e f).2 in
  (∀ p m, (p, m) ∈ opens (st_trace s) → p = README ∧ m = ModeR) ∧
  (received e f = [] → st_fs s = f) ∧
  (∀ m a, env_setuptools e = Some m → a ∈ received e f →
          st_fs s = (setup_impl m a f).2).
Proof.
  pose proof (received_spec e f) as Hrec.
  pose proof (run_of_reached e f) as Hreach.
  rewrite evaluate_spec.
  destruct (run_of e f) as [|x|pk x|pk|m pk txt]; simpl.
  1-4: split;
    [ intros p m Hin;
      repeat (apply elem_of_cons in Hin as [Hin|Hin];
              [injection Hin as -> ->; auto|]);
      apply elem_of_nil in Hin; contradiction
    | split; [reflexivity|];
      intros m a _ Ha; rewrite Hrec in Ha;
      apply elem_of_nil in Ha; contradiction ].
  destruct (Hreach m pk txt eq_refl) as (Hm & _ & _).
  split.
  { intros p mo Hin. apply list_elem_of_singleton in Hin.
    injection Hin as -> ->. auto. }
  split; [rewrite Hrec; discriminate|].
  intros m' a Hm' Ha. rewrite Hrec in Ha.
  apply list_elem_of_singleton in Ha. subst a.
  rewrite Hm in Hm'. injection Hm' as <-. reflexivity.
Qed.

(** C7, as amended.  During one evaluation the script itself does
    nothing twice: its log has no repeated operation, it opens
    [README.md] at most once and reads it at most once, and it reads no
    other file; in an evaluation that completes it opens [README.md]
    exactly once, for reading, and reads it exactly once, through the
    file object of that one [open]. *)
Theorem readme_read_once :
  let s := (evaluate e f).2 in
  NoDup (st_trace s) ∧
  opens (st_trace s) `prefix_of` [(README, ModeR)] ∧
  reads (st_trace s) `prefix_of` [0%nat] ∧
  script_files_read s `prefix_of` [README] ∧
  ((evaluate e f).1 = Ok tt →
   opens (st_trace s) = [(README, ModeR)] ∧
   reads (st_trace s) = [0%nat] ∧
   fo_path <$> st_files s !! 0%nat = Some README ∧
   script_files_read s = [README]).
Proof.
  rewrite evaluate_spec.
  destruct (run_of e f) as [|x|pk x|pk|m pk txt]; simpl;
    (split; [distinct_events|]);
    (split; [first [ exists [(README, ModeR)]; reflexivity
                   | exists []; reflexivity ]|]);
    (split; [first [ exists [0%nat]; reflexivity
                   | exists []; reflexivity ]|]);
    (split; [first [ exists [README]; reflexivity
                   | exists []; reflexivity ]|]);
    try discriminate.
  intros _. repeat split; reflexivity.
Qed.

(** C9.  When evaluation succeeds, the [long_description] passed to
    [setup] is the whole of [README.md], decoded with the platform's
    default text encoding as text-mode [read()] returns it, and
    [long_description_content_type] is ["text/markdown"]. *)
Theorem long_description_is_readme :
  (evaluate e f).1 = Ok tt →
  ∃ a, received e f = [a] ∧
       readme_text e f = Some (long_description a) ∧
       (∃ b w, f !! README = Some (File b true w) ∧
               universal_newlines <$> env_decode e b
                 = Some (long_description a)) ∧
       long_description_content_type a = lit "text/markdown".
Proof.
  intros Hok.
  destruct (evaluate_ok_inv e f Hok) as (m & pk & txt & Hrun & _).
  exists (keywords_with pk txt).
  rewrite received_spec, Hrun.
  destruct (run_of_reached e f m pk txt Hrun) as (_ & _ & Htxt).
  split; [reflexivity|]. split; [exact Htxt|]. split; [|reflexivity].
  unfold readme_text in Htxt.
  destruct (f !! README) as [[[|]|b [|] w]|]; try discriminate.
  exists b, w. auto.
Qed.

(** C10.  The script opens [README.md] outside any [with] statement and
    never closes it: its text has no [with] and no call of [close], no
    evaluation performs a [close], every file object left behind is the
    one for [README.md] and is still open, and after an evaluation that
    completes exactly that one open file object remains. *)
Theorem readme_handle_left_open :
  let s := (evaluate e f).2 in
  (Syntax.ContextManager ∉ flat_map Syntax.constructs Syntax.manifest_ast) ∧
  list_sum (List.map (Syntax.stmt_calls "close") Syntax.manifest_ast) = 0%nat ∧
  closes (st_trace s) = [] ∧
  (∀ fo, fo ∈ st_files s →
         fo_path fo = README ∧ fo_mode fo = ModeR ∧ fo_closed fo = false) ∧
  ((evaluate e f).1 = Ok tt → st_files s = [readme_object]).
Proof.
  split; [apply not_elem_of_nil|]. split; [reflexivity|].
  rewrite evaluate_spec.
  destruct (run_of e f) as [|x|pk x|pk|m pk txt]; simpl;
    (split; [reflexivity|]); split; try discriminate;
    try (intros fo Hfo; apply elem_of_nil in Hfo; contradiction);
    try (intros fo Hfo; apply list_elem_of_singleton in Hfo; subst fo;
         repeat split; reflexivity).
  intros _. reflexivity.
Qed.

End Effects.

Lemma evaluation_leaves_files_alone_witness :
  keywords_with [lit "pubkycore"] (lit "# pubkycore")
    ∈ received Reference.posix_env Reference.project ∧
  st_fs (evaluate Reference.posix_env Reference.project).2
    = (Reference.setup (keywords_with [lit "pubkycore"] (lit "# pubkycore"))
         Reference.project).2.
Proof.
  split; [exact project_in_received|].
  exact (proj2 (proj2
           (evaluation_leaves_files_alone
              Reference.posix_env Reference.project))
           Reference.tools _ eq_refl project_in_received).
Defined.

(** C5 as stated fails: on a rebuild, [setup] overwrites the metadata
    file that the earlier build left in the build directory. *)
Lemma rebuild_overwrites_metadata :
  let p := lit "pubkycore.egg-info/PKG-INFO" in
  Reference.project_rebuilt !! p = Some (Reference.file "Name: pubkycore-old") ∧
  (evaluate Reference.posix_env Reference.project_rebuilt).1 = Ok tt ∧
  st_fs (evaluate Reference.posix_env Reference.project_rebuilt).2 !! p
    ≠ Reference.project_rebuilt !! p.
Proof.
  intros p. split; [vm_compute; reflexivity|].
  split; [vm_compute; reflexivity|].
  vm_compute. discriminate.
Qed.

Lemma readme_read_once_witness :
  (evaluate Reference.posix_env Reference.project).1 = Ok tt ∧
  reads (st_trace (evaluate Reference.posix_env Reference.project).2)
    = [0%nat].
Proof.
  split; [exact project_completes|].
  exact (proj1 (proj2 (proj2 (proj2 (proj2 (proj2
           (readme_read_once Reference.posix_env Reference.project))))
           project_completes))).
Defined.

(** C7 as stated fails in both directions: building a source
    distribution, [setup] reads [README.md] again after the script has
    read it; and an evaluation that stops at the import never opens
    it. *)
Lemma sdist_reads_readme_again :
  (evaluate Reference.sdist_env Reference.project).1 = Ok tt ∧
  files_read (evaluate Reference.sdist_env Reference.project).2
    = [README; README; lit "setup.py"] ∧
  ¬ NoDup (files_read (evaluate Reference.sdist_env Reference.project).2) ∧
  opens (st_trace (evaluate Reference.bare_env Reference.project).2) = [] ∧
  reads (st_trace (evaluate Reference.bare_env Reference.project).2) = [].
Proof.
  assert (H : files_read (evaluate Reference.sdist_env Reference.project).2
              = [README; README; lit "setup.py"]) by (vm_compute; reflexivity).
  split; [vm_compute; reflexivity|]. split; [exact H|]. split.
  - rewrite H. intros Hnd. apply NoDup_cons in Hnd as [Hin _].
    apply Hin. apply elem_of_cons. left. reflexivity.
  - split; vm_compute; reflexivity.
Qed.

Lemma long_description_is_readme_witness :
  (evaluate Reference.posix_env Reference.project_readme_crlf).1 = Ok tt ∧
  ∃ a, received Reference.posix_env Reference.project_readme_crlf = [a] ∧
       long_description a = [35; 10; 97; 10; 98].
Proof.
  assert (Hok : (evaluate Reference.posix_env
                   Reference.project_readme_crlf).1 = Ok tt)
    by (vm_compute; reflexivity).
  split; [exact Hok|].
  destruct (long_description_is_readme _ _ Hok) as (a & Ha & Htxt & _).
  exists a. split; [exact Ha|].
  assert (Hr : readme_text Reference.posix_env Reference.project_readme_crlf
               = Some [35; 10; 97; 10; 98]) by (vm_compute; reflexivity).
  rewrite Hr in Htxt. injection Htxt as <-. reflexivity.
Defined.

Lemma readme_handle_left_open_witness :
  (evaluate Reference.posix_env Reference.project).1 = Ok tt ∧
  st_files (evaluate Reference.posix_env Reference.project).2
    = [readme_object].
Proof.
  split; [exact project_completes|].
  exact (proj2 (proj2 (proj2 (proj2
           (readme_handle_left_open Reference.posix_env Reference.project))))
           project_completes).
Defined.

(** ** C6: what flows from the environment into the arguments *)

(** C6, as amended.  Eleven of the thirteen fields are static: for any
    two evaluations that reach [setup], over whatever file systems,
    [name], [version], [package_data], [install_requires], [author],
    [author_email], [description], [long_description_content_type],
    [url], [classifiers] and [python_requires] are identical.  The other
    two flow from the environment: [packages] is what [find_packages()]
    returns on the build directory and [long_description] is the text of
    [README.md]; two evaluations that agree on these two agree on every
    argument. *)
Theorem environment_reaches_two_fields
    (e1 e2 : env) (f1 f2 : fs) (a1 a2 : setup_args) :
  a1 ∈ received e1 f1 →
  a2 ∈ received e2 f2 →
  (name a1 = name a2 ∧
   version a1 = version a2 ∧
   package_data a1 = package_data a2 ∧
   install_requires a1 = install_requires a2 ∧
   author a1 = author a2 ∧
   author_email a1 = author_email a2 ∧
   description a1 = description a2 ∧
   long_description_content_type a1 = long_description_content_type a2 ∧
   url a1 = url a2 ∧
   classifiers a1 = classifiers a2 ∧
   python_requires a1 = python_requires a2) ∧
  (∃ m, env_setuptools e1 = Some m ∧
        find_packages_impl m f1 = Ok (packages a1)) ∧
  readme_text e1 f1 = Some (long_description a1) ∧
  (packages a1 = packages a2 →
   long_description a1 = long_description a2 → a1 = a2).
Proof.
  intros H1 H2.
  destruct (received_inv e1 f1 a1 H1) as (m & pk & txt & Hrun & ->).
  rewrite (received_keywords e2 f2 a2 H2).
  destruct (run_of_reached e1 f1 m pk txt Hrun) as (Hm & Hpk & Htxt).
  split; [repeat split; reflexivity|].
  split; [exists m; auto|]. split; [exact Htxt|].
  simpl. intros -> ->. reflexivity.
Qed.

Lemma environment_reaches_two_fields_witness :
  keywords_with [lit "pubkycore"] (lit "# pubkycore")
    ∈ received Reference.posix_env Reference.project ∧
  keywords_with [lit "pubkycore"] (lit "# Pubky Core FFI")
    ∈ received Reference.posix_env Reference.project_readme2 ∧
  readme_text Reference.posix_env Reference.project
    = Some (lit "# pubkycore").
Proof.
  assert (H2 : keywords_with [lit "pubkycore"] (lit "# Pubky Core FFI")
               ∈ received Reference.posix_env Reference.project_readme2).
  { rewrite project_readme2_received. apply list_elem_of_singleton.
    reflexivity. }
  split; [exact project_in_received|]. split; [exact H2|].
  exact (proj1 (proj2 (proj2
           (environment_reaches_two_fields _ _ _ _ _ _
              project_in_received H2)))).
Defined.

(** C6 as stated fails: the same manifest over a build directory with
    another [README.md], or with another package directory, hands [setup]
    other arguments. *)
Lemma arguments_depend_on_environment :
  ∃ a1 a2 a3,
    received Reference.posix_env Reference.project = [a1] ∧
    received Reference.posix_env Reference.project_readme2 = [a2] ∧
    received Reference.posix_env Reference.project_nested = [a3] ∧
    long_description a1 ≠ long_description a2 ∧
    packages a1 ≠ packages a3 ∧
    a1 ≠ a2 ∧ a1 ≠ a3.
Proof.
  do 3 eexists.
  split; [apply project_received|].
  split; [apply project_readme2_received|].
  split; [apply project_nested_received|].
  assert (Hl : lit "# pubkycore" ≠ lit "# Pubky Core FFI") by discriminate.
  assert (Hp : [lit "pubkycore"] ≠ [lit "pubkycore"; lit "pubkycore.native"])
    by discriminate.
  split; [exact Hl|]. split; [exact Hp|]. split.
  - intros H. apply (f_equal long_description) in H. exact (Hl H).
  - intros H. apply (f_equal packages) in H. exact (Hp H).
Qed.

(** * Further properties of the script *)

Lemma evaluate_readme_failure_witness :
  env_setuptools Reference.posix_env = Some Reference.tools ∧
  find_packages_impl Reference.tools Reference.project_no_readme
    = Ok [lit "pubkycore"] ∧
  readme_text Reference.posix_env Reference.project_no_readme = None ∧
  (evaluate Reference.posix_env Reference.project_no_readme).1
    = Raise (FileNotFoundError README).
Proof.
  assert (Hpk : find_packages_impl Reference.tools Reference.project_no_readme
                = Ok [lit "pubkycore"]) by (vm_compute; reflexivity).
  assert (Hr : readme_text Reference.posix_env Reference.project_no_readme
               = None) by (vm_compute; reflexivity).
  split; [reflexivity|]. split; [exact Hpk|]. split; [exact Hr|].
  rewrite (evaluate_readme_failure Reference.posix_env
             Reference.project_no_readme Reference.tools [lit "pubkycore"]
             eq_refl Hpk Hr).
  vm_compute. reflexivity.
Defined.

(** ** Order of the operations *)

(** X3.  The import comes first: without setuptools the evaluation stops
    at line 1 with [ModuleNotFoundError], whatever the state of
    [README.md]; nothing is opened, [setup] is not called and the file
    system is as it was. *)
Lemma missing_setuptools_stops_at_import (e : env) (f : fs) :
  env_setuptools e = None →
  (evaluate e f).1 = Raise (ModuleNotFoundError (lit "setuptools")) ∧
  st_trace (evaluate e f).2 = [EvImport (lit "setuptools")] ∧
  st_files (evaluate e f).2 = [] ∧
  st_fs (evaluate e f).2 = f.
Proof.
  intros He. rewrite evaluate_spec. unfold run_of. rewrite He.
  repeat split; reflexivity.
Qed.

Lemma missing_setuptools_stops_at_import_witness :
  env_setuptools Reference.bare_env = None ∧
  readme_text Reference.bare_env Reference.project_no_readme = None ∧
  (evaluate Reference.bare_env Reference.project_no_readme).1
    = Raise (ModuleNotFoundError (lit "setuptools")).
Proof.
  split; [reflexivity|]. split; [vm_compute; reflexivity|].
  exact (proj1 (missing_setuptools_stops_at_import
                  Reference.bare_env Reference.project_no_readme eq_refl)).
Defined.

(** X4.  [packages=find_packages()] is evaluated before
    [long_description=open("README.md").read()]: when [find_packages()]
    raises, that exception is the result, [README.md] is never opened
    (even if it is missing), [setup] is not called and the file system is
    as it was. *)
Lemma find_packages_failure_precedes_readme
    (e : env) (f : fs) (m : setuptools) (x : exn) :
  env_setuptools e = Some m →
  find_packages_impl m f = Raise x →
  (evaluate e f).1 = Raise x ∧
  opens (st_trace (evaluate e f).2) = [] ∧
  reads (st_trace (evaluate e f).2) = [] ∧
  received e f = [] ∧
  st_fs (evaluate e f).2 = f.
Proof.
  intros Hm Hx. unfold received. rewrite evaluate_spec. unfold run_of.
  rewrite Hm, Hx. repeat split; reflexivity.
Qed.

Lemma find_packages_failure_precedes_readme_witness :
  env_setuptools Reference.broken_finder_env
    = Some Reference.tools_broken_finder ∧
  find_packages_impl Reference.tools_broken_finder Reference.project_no_readme
    = Raise (SetuptoolsError 2) ∧
  (evaluate Reference.broken_finder_env Reference.project_no_readme).1
    = Raise (SetuptoolsError 2).
Proof.
  split; [reflexivity|]. split; [reflexivity|].
  exact (proj1 (find_packages_failure_precedes_readme
                  Reference.broken_finder_env Reference.project_no_readme
                  Reference.tools_broken_finder (SetuptoolsError 2)
                  eq_refl eq_refl)).
Defined.

(** ** The call of [setup] *)

(** X5.  [setup] is called at most once, and exactly when setuptools can
    be imported, [find_packages()] returns and [README.md] can be read; it
    then receives the thirteen keywords with [packages] the list
    [find_packages()] returned and [long_description] the text read.  A
    failure to build any argument means no call at all. *)
Lemma setup_called_with (e : env) (f : fs) :
  received e f =
  match env_setuptools e with
  | Some m =>
      match find_packages_impl m f, readme_text e f with
      | Ok pk, Some txt => [keywords_with pk txt]
      | _, _ => []
      end
  | None => []
  end.
Proof.
  rewrite received_spec. unfold run_of, readme_text.
  destruct (env_setuptools e) as [m|]; [|reflexivity].
  destruct (find_packages_impl m f) as [pk|x]; [|reflexivity].
  destruct (f !! README) as [[[|]|b [|] w]|]; try reflexivity.
  destruct (env_decode e b) as [t|]; reflexivity.
Qed.



(** ** Line endings of the long description *)

Lemma universal_newlines_no_cr_step (s : str) :
  (CR ∉ universal_newlines s) ∧ (∀ c, CR ∉ universal_newlines (c :: s)).
Proof.
  induction s as [|d t [IH1 IH2]].
  - split; [apply not_elem_of_nil|]. intros c. simpl.
    destruct (N.eqb_spec c CR) as [->|Hc];
      apply not_elem_of_cons; (split; [|apply not_elem_of_nil]);
      [discriminate|congruence].
  - split; [apply IH2|]. intros c.
    change (universal_newlines (c :: d :: t)) with
      (if c =? CR
       then LF :: (if d =? LF then universal_newlines t
                   else universal_newlines (d :: t))
       else c :: universal_newlines (d :: t)).
    destruct (N.eqb_spec c CR) as [->|Hc]; apply not_elem_of_cons.
    + split; [discriminate|]. destruct (d =? LF); [exact IH1|apply IH2].
    + split; [congruence|apply IH2].
Qed.

Lemma universal_newlines_unchanged (s : str) :
  CR ∉ s → universal_newlines s = s.
Proof.
  induction s as [|c t IH]; intros Hs; [reflexivity|].
  apply not_elem_of_cons in Hs as [Hc Ht]. simpl.
  destruct (N.eqb_spec c CR) as [->|_]; [contradiction|].
  rewrite IH by assumption. reflexivity.
Qed.

(** X7.  Because [README.md] is opened in text mode, the
    [long_description] handed to [setup] never contains a carriage
    return, whatever line endings the file uses; and when the decoded
    file has none, [long_description] is the decoded file, character for
    character. *)
Lemma long_description_line_endings (e : env) (f : fs) (a : setup_args) :
  a ∈ received e f →
  (CR ∉ long_description a) ∧
  (∀ b w t, f !! README = Some (File b true w) →
            env_decode e b = Some t →
            CR ∉ t → long_description a = t).
Proof.
  intros Ha.
  destruct (received_inv e f a Ha) as (m & pk & txt & Hrun & ->).
  destruct (run_of_reached e f m pk txt Hrun) as (_ & _ & Htxt).
  unfold readme_text in Htxt. simpl.
  destruct (f !! README) as [[[|]|b [|] w]|]; try discriminate.
  destruct (env_decode e b) as [t|] eqn:Hdec; [|discriminate].
  injection Htxt as <-. split.
  - apply universal_newlines_no_cr_step.
  - intros b' w' t' Hf Hd Hcr. injection Hf as <- <-.
    rewrite Hdec in Hd. injection Hd as <-.
    apply universal_newlines_unchanged. exact Hcr.
Qed.

Lemma long_description_line_endings_witness :
  keywords_with [lit "pubkycore"] [35; 10; 97; 10; 98]
    ∈ received Reference.posix_env Reference.project_readme_crlf ∧
  CR ∉ long_description (keywords_with [lit "pubkycore"] [35; 10; 97; 10; 98]).
Proof.
  assert (Ha : keywords_with [lit "pubkycore"] [35; 10; 97; 10; 98]
               ∈ received Reference.posix_env Reference.project_readme_crlf).
  { assert (Hr : received Reference.posix_env Reference.project_readme_crlf
                 = [keywords_with [lit "pubkycore"] [35; 10; 97; 10; 98]])
      by (vm_compute; reflexivity).
    rewrite Hr. apply list_elem_of_singleton. reflexivity. }
  split; [exact Ha|].
  exact (proj1 (long_description_line_endings _ _ _ Ha)).
Defined.
